(** * Log tools of the MCP server: a shallow embedding of
    [src/tools/logs.py] and the properties of its six tool functions.

    The Python module registers six coroutines on a FastMCP instance; each
    one validates [min_level] (when it has that parameter), fills a [params]
    dict, performs one call on the injected [httpx.AsyncClient], calls
    [raise_for_status] on the response and returns the body.

    The embedding keeps that shape: a small state-and-exception monad whose
    state is the list of requests handed to the client so far, a [gmap] for
    the [params] dict, and one Rocq function per tool, named as in the
    source. *)

From Stdlib Require Import ZArith.
From stdpp Require Import base option strings list gmap.

Local Open Scope Z_scope.
Local Open Scope string_scope.

(** ** Python values that occur in the module *)

(** Values stored in the [params] dict: [str] or [int]. *)
Inductive pyval : Type :=
  | PStr (s : string)
  | PInt (n : Z).

(** What [resp.json()] can produce (Python's decoding of a JSON text). A
    float is kept as mantissa and binary exponent; the tools never look
    inside a decoded body. *)
#[warnings="-register-all"] Inductive json : Type :=
  | JNull
  | JBool (b : bool)
  | JInt (n : Z)
  | JFloat (m e : Z)
  | JStr (s : string)
  | JArr (items : list json)
  | JObj (members : list (string * json)).

(** Truth value of an [Optional[str]] in a condition: [None] and the empty
    string are false, every other string is true. *)
Definition truthy (o : option string) : bool :=
  match o with
  | None => false
  | Some s => negb (String.eqb s "")
  end.

(** Truth value of a [bytes] object: false exactly when it is empty. *)
Definition nonempty (b : string) : bool := negb (String.eqb b "").

(** ** [sorted] and [str.join] on lists of strings *)

Fixpoint insert_sorted (x : string) (l : list string) : list string :=
  match l with
  | [] => [x]
  | y :: l' => if String.leb x y then x :: l else y :: insert_sorted x l'
  end.

(** [sorted(xs)] for strings: ascending in code-point order. *)
Definition sorted (l : list string) : list string :=
  foldr insert_sorted [] l.

(** [sep.join(xs)]. *)
Fixpoint join (sep : string) (l : list string) : string :=
  match l with
  | [] => ""
  | [x] => x
  | x :: l' => x +:+ sep +:+ join sep l'
  end.

(** ** The HTTP client *)

Inductive http_method : Type := GET | DELETE.

(** A call [client.get(path, params=params)] or
    [client.delete(path, params=params)]. *)
Record Request : Type := mkRequest {
  req_method : http_method;
  req_path : string;
  req_params : gmap string pyval
}.

(** The attributes of an [httpx.Response] that the tools read:
    [status_code], [content] (the raw body), [text] (the body decoded as
    text) and the result of [json()], which is [None] here when the body is
    not a JSON text (Python raises a decoding error then). *)
Record Response : Type := mkResponse {
  status_code : Z;
  content : string;
  text : string;
  json_body : option json
}.

(** Exceptions that leave a tool: the [ValueError] raised by the level
    check, httpx's [HTTPStatusError] (it holds the response), a JSON
    decoding error, and any failure of the transport itself. *)
Inductive exn : Type :=
  | ValueError (msg : string)
  | HTTPStatusError (resp : Response)
  | JSONDecodeError (body : string)
  | TransportError (info : string).

(** The injected client, seen from the tools: given the requests it has
    already been handed, a request is answered by a response or fails in
    the transport. *)
Definition AsyncClient : Type := list Request → Request → Response + string.

(** ** The monad of a tool body

    State: the requests handed to the client so far, oldest first. *)

Inductive outcome (A : Type) : Type :=
  | Return (a : A)
  | Raise (e : exn).
Arguments Return {A} a.
Arguments Raise {A} e.

Definition M (A : Type) : Type := list Request → outcome A * list Request.

Definition ret {A} (a : A) : M A := λ tr, (Return a, tr).
Definition raise {A} (e : exn) : M A := λ tr, (Raise e, tr).
Definition bind {A B} (m : M A) (k : A → M B) : M B :=
  λ tr, match m tr with
        | (Return a, tr') => k a tr'
        | (Raise e, tr') => (Raise e, tr')
        end.

#[global] Instance M_ret : MRet M := @ret.
#[global] Instance M_bind : MBind M := λ A B k m, bind m k.

(** [if v: params[k] = v] for an [Optional[str]] value [v]. *)
Definition set_if_truthy (k : string) (v : option string)
    (params : gmap string pyval) : gmap string pyval :=
  match v with
  | Some s => if truthy v then <[k := PStr s]> params else params
  | None => params
  end.

(** [if v is not None: params[k] = v] for an [Optional[int]] value [v]. *)
Definition set_if_not_none (k : string) (v : option Z)
    (params : gmap string pyval) : gmap string pyval :=
  match v with
  | Some n => <[k := PInt n]> params
  | None => params
  end.

(** Modelled from the spec: [Response.is_success] of httpx, which is not
    part of the repository: a status code from 200 to 299. *)
Definition is_success (r : Response) : bool :=
  (200 <=? status_code r)%Z && (status_code r <=? 299)%Z.

(** Modelled from the spec: [Response.raise_for_status] of httpx, which is
    not part of the repository: it raises [HTTPStatusError] holding the
    response unless the status is a success. *)
Definition raise_for_status (r : Response) : M unit :=
  if is_success r then ret tt else raise (HTTPStatusError r).

(** [resp.json()]. *)
Definition resp_json (r : Response) : M json :=
  match json_body r with
  | Some j => ret j
  | None => raise (JSONDecodeError (content r))
  end.

(** [valid_levels = {"ERROR", "WARN", "INFO", "DEBUG", "TRACE"}], the local
    set of the five tools that take [min_level]. *)
Definition valid_levels : gset string :=
  {[ "ERROR"; "WARN"; "INFO"; "DEBUG"; "TRACE" ]}.

(** The text of the [ValueError]:
    [f"Invalid min_level '{min_level}'. Must be one of: {', '.join(sorted(valid_levels))}"] *)
Definition invalid_min_level_msg (min_level : string) : string :=
  "Invalid min_level '" +:+ min_level +:+ "'. Must be one of: "
    +:+ join ", " (sorted (elements valid_levels)).

(** The check that opens those five tools:
    [if min_level and min_level not in valid_levels: raise ValueError(...)] *)
Definition check_min_level (min_level : option string) : M unit :=
  match min_level with
  | Some lvl =>
      if truthy min_level && negb (bool_decide (lvl ∈ valid_levels))
      then raise (ValueError (invalid_min_level_msg lvl))
      else ret tt
  | None => ret tt
  end.

Section Tools.

(** [register_logs_tools(mcp, client)]: every tool closes over [client]. *)
Variable client : AsyncClient.

Definition send (rq : Request) : M Response :=
  λ tr, match client tr rq with
        | inl r => (Return r, (tr ++ [rq])%list)
        | inr info => (Raise (TransportError info), (tr ++ [rq])%list)
        end.

Definition client_get (path : string) (params : gmap string pyval) : M Response :=
  send (mkRequest GET path params).

Definition client_delete (path : string) (params : gmap string pyval) : M Response :=
  send (mkRequest DELETE path params).

Definition get_execution_logs (execution_id : string)
    (min_level task_run_id task_id : option string) (attempt : option Z) : M json :=
  check_min_level min_level ;;
  let params : gmap string pyval := ∅ in
  let params := set_if_truthy "minLevel" min_level params in
  let params := set_if_truthy "taskRunId" task_run_id params in
  let params := set_if_truthy "taskId" task_id params in
  let params := set_if_not_none "attempt" attempt params in
  resp ← client_get ("/logs/" +:+ execution_id) params ;
  raise_for_status resp ;;
  resp_json resp.

Definition download_execution_logs (execution_id : string)
    (min_level task_run_id task_id : option string) (attempt : option Z) : M string :=
  check_min_level min_level ;;
  let params : gmap string pyval := ∅ in
  let params := set_if_truthy "minLevel" min_level params in
  let params := set_if_truthy "taskRunId" task_run_id params in
  let params := set_if_truthy "taskId" task_id params in
  let params := set_if_not_none "attempt" attempt params in
  resp ← client_get ("/logs/" +:+ execution_id +:+ "/download") params ;
  raise_for_status resp ;;
  ret (text resp).

Definition search_logs (query namespace flow_id min_level start_date end_date : option string)
    (page size : Z) : M json :=
  check_min_level min_level ;;
  let params : gmap string pyval := <["size" := PInt size]> (<["page" := PInt page]> ∅) in
  let params := set_if_truthy "q" query params in
  let params := set_if_truthy "namespace" namespace params in
  let params := set_if_truthy "flowId" flow_id params in
  let params := set_if_truthy "minLevel" min_level params in
  let params := set_if_truthy "startDate" start_date params in
  let params := set_if_truthy "endDate" end_date params in
  resp ← client_get "/logs/search" params ;
  raise_for_status resp ;;
  resp_json resp.

(** [{"status": "deleted"}] *)
Definition status_deleted : json := JObj [("status", JStr "deleted")].

Definition delete_execution_logs (execution_id : string)
    (min_level task_run_id task_id : option string) (attempt : option Z) : M json :=
  check_min_level min_level ;;
  let params : gmap string pyval := ∅ in
  let params := set_if_truthy "minLevel" min_level params in
  let params := set_if_truthy "taskRunId" task_run_id params in
  let params := set_if_truthy "taskId" task_id params in
  let params := set_if_not_none "attempt" attempt params in
  resp ← client_delete ("/logs/" +:+ execution_id) params ;
  raise_for_status resp ;;
  if nonempty (content resp) then resp_json resp else ret status_deleted.

Definition delete_flow_logs (namespace flow_id : string)
    (trigger_id : option string) : M json :=
  let params : gmap string pyval := ∅ in
  let params := set_if_truthy "triggerId" trigger_id params in
  resp ← client_delete ("/logs/" +:+ namespace +:+ "/" +:+ flow_id) params ;
  raise_for_status resp ;;
  if nonempty (content resp) then resp_json resp else ret status_deleted.

Definition follow_execution_logs (execution_id : string)
    (min_level : option string) : M string :=
  check_min_level min_level ;;
  let params : gmap string pyval := ∅ in
  let params := set_if_truthy "minLevel" min_level params in
  resp ← client_get ("/logs/" +:+ execution_id +:+ "/follow") params ;
  raise_for_status resp ;;
  ret (text resp).

End Tools.

(** ** The tool-call boundary

    FastMCP dispatches a call by tool name and fills the parameters the
    caller left out with the defaults of the signature. *)

Inductive tool_result : Type :=
  | RJson (j : json)
  | RText (s : string).

(** A call as the caller makes it. A parameter with default [None] is
    [None] when left out; [page] and [size] of [search_logs] are [None]
    here when the caller leaves them out. *)
Inductive tool_call : Type :=
  | GetExecutionLogs (execution_id : string)
      (min_level task_run_id task_id : option string) (attempt : option Z)
  | DownloadExecutionLogs (execution_id : string)
      (min_level task_run_id task_id : option string) (attempt : option Z)
  | SearchLogs (query namespace flow_id min_level start_date end_date : option string)
      (page size : option Z)
  | DeleteExecutionLogs (execution_id : string)
      (min_level task_run_id task_id : option string) (attempt : option Z)
  | DeleteFlowLogs (namespace flow_id : string) (trigger_id : option string)
  | FollowExecutionLogs (execution_id : string) (min_level : option string).

(** Defaults in the signature of [search_logs]: [page = 1], [size = 25]. *)
Definition search_logs_page_default : Z := 1.
Definition search_logs_size_default : Z := 25.

Definition map_result {A B} (f : A → B) (m : M A) : M B :=
  a ← m ; ret (f a).

Definition call_tool (client : AsyncClient) (c : tool_call) : M tool_result :=
  match c with
  | GetExecutionLogs execution_id min_level task_run_id task_id attempt =>
      map_result RJson
        (get_execution_logs client execution_id min_level task_run_id task_id attempt)
  | DownloadExecutionLogs execution_id min_level task_run_id task_id attempt =>
      map_result RText
        (download_execution_logs client execution_id min_level task_run_id task_id attempt)
  | SearchLogs query namespace flow_id min_level start_date end_date page size =>
      map_result RJson
        (search_logs client query namespace flow_id min_level start_date end_date
           (default search_logs_page_default page)
           (default search_logs_size_default size))
  | DeleteExecutionLogs execution_id min_level task_run_id task_id attempt =>
      map_result RJson
        (delete_execution_logs client execution_id min_level task_run_id task_id attempt)
  | DeleteFlowLogs namespace flow_id trigger_id =>
      map_result RJson (delete_flow_logs client namespace flow_id trigger_id)
  | FollowExecutionLogs execution_id min_level =>
      map_result RText (follow_execution_logs client execution_id min_level)
  end.

(** ** Vocabulary of the statements *)

(** The requests an invocation [m] hands to the client when it starts after
    the requests [tr]. *)
Definition issued {A} (m : M A) (tr : list Request) : list Request :=
  drop (length tr) (m tr).2.

(** The invocation ends in the [ValueError] of the level check. *)
Definition is_value_error {A} (o : outcome A) : bool :=
  match o with
  | Raise (ValueError _) => true
  | _ => false
  end.

(** The [min_level] argument of a call, for the five tools that have one. *)
Definition min_level_of (c : tool_call) : option string :=
  match c with
  | GetExecutionLogs _ min_level _ _ _
  | DownloadExecutionLogs _ min_level _ _ _
  | SearchLogs _ _ _ min_level _ _ _ _
  | DeleteExecutionLogs _ min_level _ _ _
  | FollowExecutionLogs _ min_level => min_level
  | DeleteFlowLogs _ _ _ => None
  end.

(** The parameters with default [None] of each tool, as the caller gave
    them, under the name the tool uses for them in [params]. *)
Definition optional_args (c : tool_call) : list (string * option pyval) :=
  match c with
  | GetExecutionLogs _ min_level task_run_id task_id attempt
  | DownloadExecutionLogs _ min_level task_run_id task_id attempt
  | DeleteExecutionLogs _ min_level task_run_id task_id attempt =>
      [ ("minLevel", PStr <$> min_level); ("taskRunId", PStr <$> task_run_id);
        ("taskId", PStr <$> task_id); ("attempt", PInt <$> attempt) ]
  | SearchLogs query namespace flow_id min_level start_date end_date _ _ =>
      [ ("q", PStr <$> query); ("namespace", PStr <$> namespace);
        ("flowId", PStr <$> flow_id); ("minLevel", PStr <$> min_level);
        ("startDate", PStr <$> start_date); ("endDate", PStr <$> end_date) ]
  | DeleteFlowLogs _ _ trigger_id => [ ("triggerId", PStr <$> trigger_id) ]
  | FollowExecutionLogs _ min_level => [ ("minLevel", PStr <$> min_level) ]
  end.

(** Method and path of the endpoint a call addresses. *)
Definition endpoint (c : tool_call) : http_method * string :=
  match c with
  | GetExecutionLogs execution_id _ _ _ _ => (GET, "/logs/" +:+ execution_id)
  | DownloadExecutionLogs execution_id _ _ _ _ =>
      (GET, "/logs/" +:+ execution_id +:+ "/download")
  | SearchLogs _ _ _ _ _ _ _ _ => (GET, "/logs/search")
  | DeleteExecutionLogs execution_id _ _ _ _ => (DELETE, "/logs/" +:+ execution_id)
  | DeleteFlowLogs namespace flow_id _ =>
      (DELETE, "/logs/" +:+ namespace +:+ "/" +:+ flow_id)
  | FollowExecutionLogs execution_id _ =>
      (GET, "/logs/" +:+ execution_id +:+ "/follow")
  end.

(** [sub] occurs in [s]. *)
Definition contains (s sub : string) : Prop :=
  ∃ pre post, s = pre +:+ sub +:+ post.

(** A client for the examples: it answers every request with status 200
    and the body [[]]. *)
Definition ok_client : AsyncClient :=
  λ _ _, inl (mkResponse 200 "[]" "[]" (Some (JArr []))).

(** A client that answers every request with status 204 and no body. *)
Definition no_content_client : AsyncClient :=
  λ _ _, inl (mkResponse 204 "" "" None).

(** A client that answers every request with status 404. *)
Definition not_found_client : AsyncClient :=
  λ _ _, inl (mkResponse 404 "Not Found" "Not Found" None).

(** The level check passes: it returns and leaves the state alone. *)
Definition level_check_passes (ml : option string) : Prop :=
  ∀ tr, check_min_level ml tr = (Return tt, tr).

(** The entry the backend returns in the scenario of the specification. *)
Definition sample_entry : json :=
  JObj [ ("namespace", JStr "n"); ("flowId", JStr "f");
         ("executionId", JStr "abc123");
         ("timestamp", JStr "2024-01-01T00:00:00Z");
         ("level", JStr "INFO"); ("message", JStr "hi") ].

(** A client that answers every request with status 200 and that entry in
    a sequence. *)
Definition sample_client : AsyncClient :=
  λ _ _, inl (mkResponse 200 "[...]" "[...]" (Some (JArr [sample_entry]))).

(** The keys [search_logs] puts into [params] whatever the caller gives,
    with their values; the other tools have none. *)
Definition fixed_args (c : tool_call) : list (string * pyval) :=
  match c with
  | SearchLogs _ _ _ _ _ _ page size =>
      [ ("page", PInt (default search_logs_page_default page));
        ("size", PInt (default search_logs_size_default size)) ]
  | _ => []
  end.

(** A client whose transport fails on every request. *)
Definition down_client : AsyncClient := λ _ _, inr "connection refused".

(** A client that answers every request with status 200 and a body that is
    not a JSON text. *)
Definition garbled_client : AsyncClient :=
  λ _ _, inl (mkResponse 200 "<html>" "<html>" None).

(** A [min_level] that the level check lets through, told from the value
    alone: left out, the empty string, or one of the five levels. *)
Definition passes_validation (min_level : option string) : bool :=
  match min_level with
  | None => true
  | Some v => String.eqb v "" || bool_decide (v ∈ valid_levels)
  end.

(** A client that tells requests apart: a DELETE is answered with status
    204 and no body, a GET of [/logs/abc123/download] with status 200 and a
    line of text, every other GET with status 404. *)
Definition routing_client : AsyncClient :=
  λ _ rq,
    match req_method rq with
    | DELETE => inl (mkResponse 204 "" "" None)
    | GET =>
        if String.eqb (req_path rq) "/logs/abc123/download"
        then inl (mkResponse 200 "line 1" "line 1" None)
        else inl (mkResponse 404 "Not Found" "Not Found" None)
    end.

(** * Properties *)

(** ** Strings *)

Lemma append_assoc (a b c : string) : (a +:+ b) +:+ c = a +:+ b +:+ c.
Proof.
  induction a as [|x a IH]; [done|].
  change (String x ((a +:+ b) +:+ c) = String x (a +:+ b +:+ c)).
  by rewrite IH.
Qed.

Lemma append_nil_r (a : string) : a +:+ "" = a.
Proof.
  induction a as [|x a IH]; [done|].
  change (String x (a +:+ "") = String x a). by rewrite IH.
Qed.

Lemma contains_suffix (a sub : string) : contains (a +:+ sub) sub.
Proof. exists a, "". by rewrite append_nil_r. Qed.

Lemma contains_prepend (a s sub : string) :
  contains s sub → contains (a +:+ s) sub.
Proof.
  intros (pre & post & ->). exists (a +:+ pre), post. by rewrite append_assoc.
Qed.

Lemma contains_infix (a sub b : string) : contains (a +:+ sub +:+ b) sub.
Proof. by exists a, b. Qed.

(** ** The level check *)

Lemma sorted_valid_levels :
  join ", " (sorted (elements valid_levels)) = "DEBUG, ERROR, INFO, TRACE, WARN".
Proof. vm_compute. reflexivity. Qed.

Lemma invalid_min_level_msg_eq (v : string) :
  invalid_min_level_msg v =
  "Invalid min_level '" +:+ v +:+ "'. Must be one of: DEBUG, ERROR, INFO, TRACE, WARN".
Proof. unfold invalid_min_level_msg. by rewrite sorted_valid_levels. Qed.

Lemma check_min_level_rejects (v : string) (tr : list Request) :
  v ≠ "" → v ∉ valid_levels →
  check_min_level (Some v) tr = (Raise (ValueError (invalid_min_level_msg v)), tr).
Proof.
  intros Hne Hnot. unfold check_min_level, truthy.
  rewrite bool_decide_eq_false_2 by done.
  destruct (String.eqb_spec v ""); [done|]. reflexivity.
Qed.

Lemma check_min_level_accepts (ml : option string) (tr : list Request) :
  (ml = None ∨ ml = Some "" ∨ ∃ v, ml = Some v ∧ v ∈ valid_levels) →
  check_min_level ml tr = (Return tt, tr).
Proof.
  intros [-> | [-> | (v & -> & Hin)]]; try reflexivity.
  unfold check_min_level. rewrite bool_decide_eq_true_2 by done.
  by rewrite andb_false_r.
Qed.

Lemma check_min_level_cases (ml : option string) :
  (∀ tr, check_min_level ml tr = (Return tt, tr)) ∨
  ∃ v, ml = Some v ∧ v ≠ "" ∧ (v ∉ valid_levels) ∧
       ∀ tr, check_min_level ml tr
             = (Raise (ValueError (invalid_min_level_msg v)), tr).
Proof.
  destruct ml as [v|]; [|by left].
  destruct (decide (v = "")) as [->|Hne]; [by left|].
  destruct (decide (v ∈ valid_levels)) as [Hin|Hnot].
  - left. intros tr. apply check_min_level_accepts. eauto.
  - right. exists v. eauto using check_min_level_rejects.
Qed.

Lemma check_min_level_decide (ml : option string) (tr : list Request) :
  check_min_level ml tr =
    if passes_validation ml then (Return tt, tr)
    else (Raise (ValueError (invalid_min_level_msg (default "" ml))), tr).
Proof.
  destruct ml as [v|]; [|done].
  unfold check_min_level, passes_validation, truthy.
  destruct (String.eqb v ""); [done|].
  by destruct (bool_decide (v ∈ valid_levels)).
Qed.

Lemma check_min_level_passes (ml : option string) (tr : list Request) :
  passes_validation ml = true → check_min_level ml tr = (Return tt, tr).
Proof. intros Hp. by rewrite check_min_level_decide, Hp. Qed.

(** ** Unfolding a tool call *)

Lemma issued_app {A} (m : M A) (tr new : list Request) :
  (m tr).2 = (tr ++ new)%list → issued m tr = new.
Proof. unfold issued. intros ->. apply drop_app_length. Qed.

Ltac unfold_tool :=
  unfold issued, call_tool, map_result, get_execution_logs, download_execution_logs,
    search_logs, delete_execution_logs, delete_flow_logs, follow_execution_logs,
    client_get, client_delete, send, raise_for_status, resp_json;
  unfold mbind, M_bind, bind, mret, M_ret, ret, raise;
  cbv beta iota.

(** Case analysis on the level check of the call in the goal. *)
Ltac split_check ml :=
  let Hc := fresh "Hcheck" in
  destruct (check_min_level_cases ml) as [Hc | (? & ? & ? & ? & Hc)];
  rewrite ?Hc; cbv beta iota.

(** Case analysis on the answer of the client and on what is done with it. *)
Ltac split_response :=
  repeat match goal with
    | |- context [match ?client ?tr ?rq with inl _ => _ | inr _ => _ end] =>
        destruct (client tr rq) as [?|?] eqn:?; cbv beta iota
    | |- context [if is_success ?r then _ else _] =>
        destruct (is_success r) eqn:?; cbv beta iota
    | |- context [if nonempty ?b then _ else _] =>
        destruct (nonempty b) eqn:?; cbv beta iota
    | |- context [match json_body ?r with Some _ => _ | None => _ end] =>
        destruct (json_body r) eqn:?; cbv beta iota
    end.

Ltac run_call :=
  unfold_tool;
  try match goal with
    | |- context [check_min_level ?ml _] => split_check ml
    end;
  split_response;
  cbn [fst snd is_value_error];
  rewrite ?drop_app_length, ?drop_all.

Ltac run_tool c := destruct c; run_call.

(** C8: a call whose [min_level] passes validation (it is left out, empty
    or one of the five levels; [delete_flow_logs] has none) hands exactly
    one request to the client, whatever the answer (a success, an error
    status, an undecodable body or a transport failure); a call whose
    [min_level] fails validation hands it none and ends in the
    [ValueError]; the requests made before are left as they were. *)
Theorem C8_one_request_per_call (client : AsyncClient) (c : tool_call)
    (tr : list Request) :
  ((call_tool client c tr).2 = tr ++ issued (call_tool client c) tr)%list ∧
  length (issued (call_tool client c) tr) =
    (if passes_validation (min_level_of c) then 1 else 0)%nat ∧
  is_value_error (call_tool client c tr).1
    = negb (passes_validation (min_level_of c)).
Proof.
  destruct c; cbn [min_level_of]; unfold_tool;
    rewrite ?check_min_level_decide;
    try match goal with
      | |- context [passes_validation ?ml] =>
          destruct (passes_validation ml) eqn:?
      end;
    cbv beta iota; split_response; cbn [fst snd is_value_error negb];
    rewrite ?drop_app_length, ?drop_all, ?app_nil_r; done.
Qed.

(** A call with a valid level against a client that answers, one that
    refuses and one that is down: one request each time. *)
Example one_request_whatever_the_answer :
  issued (call_tool ok_client (FollowExecutionLogs "abc123" (Some "DEBUG"))) []
    = [mkRequest GET "/logs/abc123/follow" {["minLevel" := PStr "DEBUG"]}] ∧
  issued (call_tool not_found_client (FollowExecutionLogs "abc123" (Some "DEBUG"))) []
    = [mkRequest GET "/logs/abc123/follow" {["minLevel" := PStr "DEBUG"]}] ∧
  issued (call_tool down_client (FollowExecutionLogs "abc123" (Some "DEBUG"))) []
    = [mkRequest GET "/logs/abc123/follow" {["minLevel" := PStr "DEBUG"]}].
Proof. repeat split; reflexivity. Qed.

(** ** C1: the level check *)

(** C1 as stated fails for the empty string: it is not one of the five
    levels, yet the call is not rejected; the request goes out without a
    [minLevel] key and the answer of the backend is returned. *)
Lemma C1_empty_min_level_not_rejected :
  ("" ∉ valid_levels) ∧
  call_tool ok_client (GetExecutionLogs "abc123" (Some "") None None None) [] =
    (Return (RJson (JArr [])), [mkRequest GET "/logs/abc123" ∅]).
Proof. split; [by vm_compute | reflexivity]. Qed.

(** C1 (amended): for each of the five tools that take [min_level], a
    non-empty value outside the five levels makes the call raise
    [ValueError]; the message is
    [Invalid min_level '<value>'. Must be one of: DEBUG, ERROR, INFO, TRACE, WARN],
    so it contains the value and the sorted, comma-joined levels; and the
    list of requests is left as it was: nothing is sent. *)
Theorem C1_invalid_min_level_rejected (client : AsyncClient) (c : tool_call)
    (v : string) (tr : list Request) :
  min_level_of c = Some v → v ≠ "" → v ∉ valid_levels →
  ∃ msg,
    call_tool client c tr = (Raise (ValueError msg), tr) ∧
    msg = "Invalid min_level '" +:+ v
            +:+ "'. Must be one of: DEBUG, ERROR, INFO, TRACE, WARN" ∧
    contains msg v ∧
    contains msg "DEBUG, ERROR, INFO, TRACE, WARN" ∧
    issued (call_tool client c) tr = [].
Proof.
  intros Hml Hne Hnot. exists (invalid_min_level_msg v).
  assert (Hrun : call_tool client c tr =
                 (Raise (ValueError (invalid_min_level_msg v)), tr)).
  { destruct c; simpl in Hml; try discriminate; subst; unfold_tool;
      by rewrite check_min_level_rejects. }
  split; [done|]. rewrite invalid_min_level_msg_eq. split; [done|].
  split; [|split].
  - apply contains_infix.
  - do 2 apply contains_prepend.
    apply (contains_suffix "'. Must be one of: ").
  - apply issued_app. rewrite Hrun. by rewrite app_nil_r.
Qed.


Lemma C1_witness :
  min_level_of (SearchLogs None None None (Some "BOGUS") None None None None)
    = Some "BOGUS" ∧
  "BOGUS" ≠ "" ∧
  ("BOGUS" ∉ valid_levels) ∧
  ∃ msg,
    call_tool ok_client
      (SearchLogs None None None (Some "BOGUS") None None None None) []
      = (Raise (ValueError msg), []) ∧
    msg = "Invalid min_level 'BOGUS'. Must be one of: DEBUG, ERROR, INFO, TRACE, WARN" ∧
    contains msg "BOGUS" ∧
    contains msg "DEBUG, ERROR, INFO, TRACE, WARN" ∧
    issued (call_tool ok_client
              (SearchLogs None None None (Some "BOGUS") None None None None)) [] = [].
Proof.
  assert (H1 : "BOGUS" ≠ "") by done.
  assert (H2 : "BOGUS" ∉ valid_levels) by (by vm_compute).
  split; [reflexivity|]. split; [exact H1|]. split; [exact H2|].
  exact (C1_invalid_min_level_rejected ok_client
           (SearchLogs None None None (Some "BOGUS") None None None None)
           "BOGUS" [] eq_refl H1 H2).
Defined.

(** ** The [params] dict *)

Lemma lookup_set_if_truthy_ne (k k' : string) (v : option string)
    (params : gmap string pyval) :
  k' ≠ k → set_if_truthy k' v params !! k = params !! k.
Proof.
  intros Hne. unfold set_if_truthy.
  destruct v as [s|]; [|done]. destruct (truthy (Some s)); [|done].
  by rewrite lookup_insert_ne.
Qed.

Lemma lookup_set_if_truthy_eq (k : string) (v : option string)
    (params : gmap string pyval) :
  set_if_truthy k v params !! k = if truthy v then PStr <$> v else params !! k.
Proof.
  unfold set_if_truthy. destruct v as [s|]; [|done].
  destruct (truthy (Some s)); [|done]. by rewrite lookup_insert_eq.
Qed.

Lemma lookup_set_if_not_none_ne (k k' : string) (v : option Z)
    (params : gmap string pyval) :
  k' ≠ k → set_if_not_none k' v params !! k = params !! k.
Proof.
  intros Hne. unfold set_if_not_none. destruct v; [|done].
  by rewrite lookup_insert_ne.
Qed.

Lemma lookup_set_if_not_none_eq (k : string) (v : option Z)
    (params : gmap string pyval) :
  set_if_not_none k v params !! k =
    match v with Some n => Some (PInt n) | None => params !! k end.
Proof. unfold set_if_not_none. destruct v; [|done]. by rewrite lookup_insert_eq. Qed.

(** Reads a key of the dict a tool has built. *)
Ltac lookup_params :=
  repeat first
    [ rewrite lookup_set_if_truthy_eq
    | rewrite lookup_set_if_not_none_eq
    | rewrite lookup_set_if_truthy_ne by done
    | rewrite lookup_set_if_not_none_ne by done
    | rewrite lookup_insert_eq
    | rewrite lookup_insert_ne by done
    | rewrite lookup_empty ].

(** A call whose [min_level] passes validation makes one request. *)
Lemma issued_singleton (client : AsyncClient) (c : tool_call) (tr : list Request) :
  passes_validation (min_level_of c) = true →
  ∃ rq, issued (call_tool client c) tr = [rq].
Proof.
  destruct c; cbn [min_level_of]; intros Hp; unfold_tool;
    rewrite ?check_min_level_decide, ?Hp; cbv beta iota; split_response;
    cbn [fst snd]; rewrite drop_app_length; eauto.
Qed.

Lemma absent_or_int_params (client : AsyncClient) (c : tool_call)
    (tr : list Request) (k : string) (v : option pyval) :
  (k, v) ∈ optional_args c →
  (v = None ∨ ∃ n, v = Some (PInt n)) →
  Forall (λ rq, req_params rq !! k = v) (issued (call_tool client c) tr).
Proof.
  intros Hin Hv.
  destruct c; cbn [optional_args] in Hin; set_unfold in Hin.
  all: destruct Hv as [-> | [n ->]]; destruct_or!; simplify_eq.
  all: repeat match goal with
         | H : _ = _ <$> ?o |- _ => destruct o; simplify_eq/=
         end.
  all: run_call; try apply Forall_nil_2; apply Forall_singleton;
    cbn [req_params]; by lookup_params.
Qed.

(** C2: for every tool and each of its optional parameters [k], given as
    [v]: a call whose [min_level] passes validation makes one request, and
    in its [params] the key [k] is absent when [v] is [None] (the parameter
    was left out) and holds [n] when [v] is the integer [n]; so
    [attempt=0] does put [attempt: 0] into the request, and leaving
    [attempt] out puts no [attempt] key there. *)
Theorem C2_absent_omitted_attempt_kept (client : AsyncClient) (c : tool_call)
    (tr : list Request) (k : string) (v : option pyval) :
  (k, v) ∈ optional_args c →
  (v = None ∨ ∃ n, v = Some (PInt n)) →
  passes_validation (min_level_of c) = true →
  ∃ rq, issued (call_tool client c) tr = [rq] ∧ req_params rq !! k = v.
Proof.
  intros Hin Hv Hp.
  destruct (issued_singleton client c tr Hp) as [rq Hrq].
  exists rq. split; [done|].
  apply (Forall_singleton (λ rq, req_params rq !! k = v)).
  rewrite <- Hrq. by apply absent_or_int_params.
Qed.

Lemma C2_witness :
  ("attempt", Some (PInt 0))
    ∈ optional_args (DeleteExecutionLogs "abc123" (Some "ERROR") None None (Some 0)) ∧
  (Some (PInt 0) = None ∨ ∃ n, Some (PInt 0) = Some (PInt n)) ∧
  passes_validation
    (min_level_of (DeleteExecutionLogs "abc123" (Some "ERROR") None None (Some 0)))
    = true ∧
  ∃ rq,
    issued (call_tool routing_client
              (DeleteExecutionLogs "abc123" (Some "ERROR") None None (Some 0))) []
      = [rq] ∧
    req_params rq !! "attempt" = Some (PInt 0).
Proof.
  assert (H1 : ("attempt", Some (PInt 0))
                 ∈ optional_args
                     (DeleteExecutionLogs "abc123" (Some "ERROR") None None (Some 0))).
  { simpl. do 3 apply list_elem_of_further. apply list_elem_of_here. }
  assert (H2 : Some (PInt 0) = None ∨ ∃ n, Some (PInt 0) = Some (PInt n)).
  { right. exists 0%Z. reflexivity. }
  assert (H3 : passes_validation
                 (min_level_of
                    (DeleteExecutionLogs "abc123" (Some "ERROR") None None (Some 0)))
               = true) by (by vm_compute).
  split; [exact H1|]. split; [exact H2|]. split; [exact H3|].
  exact (C2_absent_omitted_attempt_kept routing_client
           (DeleteExecutionLogs "abc123" (Some "ERROR") None None (Some 0)) []
           "attempt" (Some (PInt 0)) H1 H2 H3).
Defined.

(** The same call with [attempt] left out and with [attempt=0], run. *)
Example attempt_left_out :
  issued (call_tool ok_client (GetExecutionLogs "abc123" None None None None)) []
    = [mkRequest GET "/logs/abc123" ∅].
Proof. reflexivity. Qed.

Example attempt_zero :
  issued (call_tool ok_client (GetExecutionLogs "abc123" None None None (Some 0))) []
    = [mkRequest GET "/logs/abc123" {["attempt" := PInt 0]}].
Proof. reflexivity. Qed.

(** ** Answers of the backend *)

Lemma level_check_passes_iff (ml : option string) :
  level_check_passes ml ↔
  ml = None ∨ ml = Some "" ∨ ∃ v, ml = Some v ∧ v ∈ valid_levels.
Proof.
  split.
  - intros Hp. specialize (Hp []).
    destruct ml as [v|]; [|by left]. right.
    destruct (decide (v = "")) as [->|Hne]; [by left|]. right.
    destruct (decide (v ∈ valid_levels)) as [Hin|Hnot]; [by exists v|].
    by rewrite check_min_level_rejects in Hp.
  - intros H tr. by apply check_min_level_accepts.
Qed.

Lemma is_success_true (r : Response) :
  (200 ≤ status_code r ≤ 299)%Z → is_success r = true.
Proof. unfold is_success. intros [??]. apply andb_true_iff. split; lia. Qed.

Lemma is_success_false (r : Response) :
  (status_code r < 200 ∨ 299 < status_code r)%Z → is_success r = false.
Proof. unfold is_success. intros [?|?]; apply andb_false_iff; [left|right]; lia. Qed.

Lemma nonempty_false (b : string) : b = "" → nonempty b = false.
Proof. by intros ->. Qed.

Lemma nonempty_true (b : string) : b ≠ "" → nonempty b = true.
Proof. intros Hne. unfold nonempty. by destruct (String.eqb_spec b ""). Qed.

(** Runs a tool body in the goal whose level check passes by [Hp]. *)
Ltac run_valid Hp :=
  unfold_tool; rewrite ?(check_min_level_passes _ _ Hp); cbv beta iota.

(** The request of the run in the goal, read off the run itself. *)
Ltac own_request Hp :=
  eexists; split;
  [ run_valid Hp; split_response; cbn [fst snd]; rewrite drop_app_length;
    reflexivity
  | ].

(** C3: [delete_execution_logs] (its [min_level] passing validation) and
    [delete_flow_logs] each make one request, and whenever the backend
    answers that request with a 2xx status, the call returns
    [{"status": "deleted"}] if the body is empty and the decoded JSON body
    if the body is not empty. Nothing is assumed about how the backend
    answers any other request. *)
Theorem C3_delete_confirmation (client : AsyncClient) (tr : list Request)
    (execution_id : string)
    (min_level task_run_id task_id : option string) (attempt : option Z)
    (namespace flow_id : string) (trigger_id : option string) :
  let by_execution :=
    delete_execution_logs client execution_id min_level task_run_id task_id attempt in
  let by_flow := delete_flow_logs client namespace flow_id trigger_id in
  (passes_validation min_level = true →
   ∃ rq, issued by_execution tr = [rq] ∧
     ∀ r, client tr rq = inl r → (200 ≤ status_code r ≤ 299)%Z →
       (content r = "" →
          (by_execution tr).1 = Return (JObj [("status", JStr "deleted")])) ∧
       (∀ j, content r ≠ "" → json_body r = Some j →
          (by_execution tr).1 = Return j)) ∧
  (∃ rq, issued by_flow tr = [rq] ∧
     ∀ r, client tr rq = inl r → (200 ≤ status_code r ≤ 299)%Z →
       (content r = "" →
          (by_flow tr).1 = Return (JObj [("status", JStr "deleted")])) ∧
       (∀ j, content r ≠ "" → json_body r = Some j →
          (by_flow tr).1 = Return j)).
Proof.
  intros by_execution by_flow. subst by_execution by_flow. split.
  - intros Hp. own_request Hp.
    intros r Hr Hok. apply is_success_true in Hok.
    split; [intros Hc; apply nonempty_false in Hc
           | intros j Hc Hj; apply nonempty_true in Hc].
    all: run_valid Hp; by rewrite Hr, Hok, Hc, ?Hj.
  - own_request I.
    intros r Hr Hok. apply is_success_true in Hok.
    split; [intros Hc; apply nonempty_false in Hc
           | intros j Hc Hj; apply nonempty_true in Hc].
    all: unfold_tool; by rewrite Hr, Hok, Hc, ?Hj.
Qed.

Lemma C3_witness :
  passes_validation (Some "INFO") = true ∧
  (delete_execution_logs routing_client "abc123" (Some "INFO") None None
     (Some 0) []).1 = Return (JObj [("status", JStr "deleted")]) ∧
  (delete_flow_logs routing_client "company.team" "hello_mcp" None []).1
    = Return (JObj [("status", JStr "deleted")]).
Proof.
  assert (Hp : passes_validation (Some "INFO") = true) by (by vm_compute).
  split; [exact Hp|].
  destruct (C3_delete_confirmation routing_client [] "abc123" (Some "INFO")
              None None (Some 0) "company.team" "hello_mcp" None) as [He Hf].
  split.
  - destruct (He Hp) as (rq & Hrq & Hanswer).
    injection Hrq as <-.
    refine (proj1 (Hanswer (mkResponse 204 "" "" None) eq_refl _) eq_refl).
    simpl. lia.
  - destruct Hf as (rq & Hrq & Hanswer).
    injection Hrq as <-.
    refine (proj1 (Hanswer (mkResponse 204 "" "" None) eq_refl _) eq_refl).
    simpl. lia.
Defined.

(** A delete answered with a body returns the decoded body. *)
Example delete_with_body :
  call_tool ok_client (DeleteFlowLogs "company.team" "hello_mcp" (Some "t1")) [] =
    (Return (RJson (JArr [])),
     [mkRequest DELETE "/logs/company.team/hello_mcp" {["triggerId" := PStr "t1"]}]).
Proof. reflexivity. Qed.

(** C4: whenever the backend answers the request of a call with a status
    outside 200..299, the call raises [HTTPStatusError] holding that
    response (status code and body), whatever the tool and whatever the
    status; no result is returned, and that request stays the only one the
    call has made. *)
Theorem C4_error_status_raised (client : AsyncClient) (c : tool_call)
    (tr : list Request) (rq : Request) (r : Response) :
  rq ∈ issued (call_tool client c) tr →
  client tr rq = inl r →
  (status_code r < 200 ∨ 299 < status_code r)%Z →
  call_tool client c tr = (Raise (HTTPStatusError r), (tr ++ [rq])%list).
Proof.
  intros Hin Hr Hbad. apply is_success_false in Hbad. revert Hin.
  run_tool c; intros Hin; try by apply elem_of_nil in Hin.
  all: apply list_elem_of_singleton in Hin; subst rq; congruence.
Qed.

Lemma C4_witness :
  mkRequest GET "/logs/abc123" ∅
    ∈ issued (call_tool not_found_client
                (GetExecutionLogs "abc123" None None None None)) [] ∧
  not_found_client [] (mkRequest GET "/logs/abc123" ∅)
    = inl (mkResponse 404 "Not Found" "Not Found" None) ∧
  (404 < 200 ∨ 299 < 404)%Z ∧
  call_tool not_found_client (GetExecutionLogs "abc123" None None None None) [] =
    (Raise (HTTPStatusError (mkResponse 404 "Not Found" "Not Found" None)),
     [mkRequest GET "/logs/abc123" ∅]).
Proof.
  assert (H1 : mkRequest GET "/logs/abc123" ∅
                 ∈ issued (call_tool not_found_client
                             (GetExecutionLogs "abc123" None None None None)) []).
  { apply list_elem_of_here. }
  assert (H2 : (404 < 200 ∨ 299 < 404)%Z) by (right; lia).
  split; [exact H1|]. split; [reflexivity|]. split; [exact H2|].
  exact (C4_error_status_raised not_found_client
           (GetExecutionLogs "abc123" None None None None) []
           (mkRequest GET "/logs/abc123" ∅)
           (mkResponse 404 "Not Found" "Not Found" None) H1 eq_refl H2).
Defined.

(** ** A run of [get_execution_logs] *)

(** C5: [get_execution_logs("abc123", min_level="INFO")] makes the single
    request GET /logs/abc123 with the query mapping [{minLevel: "INFO"}],
    whatever the backend does with it; and when the backend answers that
    request with a 2xx status and a JSON body, the call returns the decoded
    body as it is, object or sequence. *)
Theorem C5_get_execution_logs_scenario (client : AsyncClient) (tr : list Request) :
  let rq := mkRequest GET "/logs/abc123" {["minLevel" := PStr "INFO"]} in
  let run := get_execution_logs client "abc123" (Some "INFO") None None None in
  issued run tr = [rq] ∧
  (run tr).2 = (tr ++ [rq])%list ∧
  ∀ r j, client tr rq = inl r → (200 ≤ status_code r ≤ 299)%Z →
         json_body r = Some j → (run tr).1 = Return j.
Proof.
  intros rq run.
  assert (Hrun : run tr =
            (let (o, tr') :=
               match client tr rq with
               | inl r => (Return r, (tr ++ [rq])%list)
               | inr info => (Raise (TransportError info), (tr ++ [rq])%list)
               end in
             match o with
             | Return resp =>
                 if is_success resp
                 then match json_body resp with
                      | Some j => (Return j, tr')
                      | None => (Raise (JSONDecodeError (content resp)), tr')
                      end
                 else (Raise (HTTPStatusError resp), tr')
             | Raise e => (Raise e, tr')
             end)).
  { subst run. unfold_tool.
    change (check_min_level (Some "INFO") tr) with (Return tt, tr).
    cbv beta iota. change (mkRequest GET _ _) with rq.
    destruct (client tr rq) as [r|info]; [|done].
    destruct (is_success r); [|done]. by destruct (json_body r). }
  assert (Hsnd : (run tr).2 = (tr ++ [rq])%list).
  { rewrite Hrun. by split_response. }
  split; [by apply issued_app|]. split; [done|].
  intros r j Hr Hok Hj. apply is_success_true in Hok.
  by rewrite Hrun, Hr, Hok, Hj.
Qed.

Lemma C5_witness :
  issued (get_execution_logs sample_client "abc123" (Some "INFO") None None None) []
    = [mkRequest GET "/logs/abc123" {["minLevel" := PStr "INFO"]}] ∧
  (get_execution_logs sample_client "abc123" (Some "INFO") None None None []).1
    = Return (JArr [sample_entry]).
Proof.
  destruct (C5_get_execution_logs_scenario sample_client []) as (H1 & _ & H3).
  split; [exact H1|].
  refine (H3 (mkResponse 200 "[...]" "[...]" (Some (JArr [sample_entry])))
             (JArr [sample_entry]) eq_refl _ eq_refl).
  simpl. lia.
Defined.

(** ** [search_logs] *)

(** C6: every request of [search_logs] has the keys [page] and [size], with
    the values the caller gave or else 1 and 25; and the call with nothing
    given at all makes the request GET /logs/search with exactly
    [{page: 1, size: 25}]. *)
Theorem C6_search_logs_page_size (client : AsyncClient) (tr : list Request)
    (query namespace flow_id min_level start_date end_date : option string)
    (page size : option Z) :
  Forall (λ rq, req_params rq !! "page" = Some (PInt (default 1%Z page)) ∧
                req_params rq !! "size" = Some (PInt (default 25%Z size)))
    (issued (call_tool client
               (SearchLogs query namespace flow_id min_level start_date end_date
                  page size)) tr) ∧
  issued (call_tool client (SearchLogs None None None None None None None None)) tr
    = [mkRequest GET "/logs/search" {["page" := PInt 1; "size" := PInt 25]}].
Proof.
  split.
  - run_call; try apply Forall_nil_2; apply Forall_singleton;
      cbn [req_params]; by lookup_params.
  - apply issued_app.
    assert (Hparams :
      <["size" := PInt (default search_logs_size_default None)]>
        (<["page" := PInt (default search_logs_page_default None)]> ∅)
      = ({["page" := PInt 1; "size" := PInt 25]} : gmap string pyval))
      by (by vm_compute).
    unfold_tool. change (check_min_level None tr) with (Return tt, tr).
    cbv beta iota. unfold set_if_truthy. rewrite Hparams. by split_response.
Qed.

Example search_logs_defaults :
  issued (call_tool ok_client (SearchLogs None None None None None None None None)) []
    = [mkRequest GET "/logs/search" {["page" := PInt 1; "size" := PInt 25]}].
Proof. by vm_compute. Qed.

Example search_logs_all_given :
  issued (call_tool ok_client
            (SearchLogs (Some "boom") (Some "company.team") (Some "hello_mcp")
               (Some "ERROR") None None (Some 2%Z) (Some 10%Z))) []
    = [mkRequest GET "/logs/search"
         {["page" := PInt 2; "size" := PInt 10; "q" := PStr "boom";
           "namespace" := PStr "company.team"; "flowId" := PStr "hello_mcp";
           "minLevel" := PStr "ERROR"]}].
Proof. by vm_compute. Qed.

(** ** Required parameters *)

(** C7 as stated fails: an empty [execution_id], and an empty [namespace]
    and [flow_id], are not rejected; the request goes out with the empty
    text in the path and the answer of the backend is returned. *)
Lemma C7_empty_required_parameter_sent :
  call_tool ok_client (GetExecutionLogs "" None None None None) [] =
    (Return (RJson (JArr [])), [mkRequest GET "/logs/" ∅]) ∧
  call_tool ok_client (DeleteFlowLogs "" "" None) [] =
    (Return (RJson (JArr [])), [mkRequest DELETE "/logs//" ∅]).
Proof. split; reflexivity. Qed.

(** C7 (amended): [execution_id], [namespace] and [flow_id] are required
    strings that are not checked for emptiness: for every value of them,
    the empty string included, a call whose [min_level] passes validation
    does not end in a [ValueError] and makes exactly one request, with the
    method of the tool and the values put into the path as they are. *)
Theorem C7_required_parameters_unchecked (client : AsyncClient) (c : tool_call)
    (tr : list Request) :
  passes_validation (min_level_of c) = true →
  is_value_error (call_tool client c tr).1 = false ∧
  ∃ params,
    issued (call_tool client c) tr = [mkRequest (endpoint c).1 (endpoint c).2 params].
Proof.
  destruct c; cbn [min_level_of endpoint fst snd]; intros Hp; unfold_tool;
    rewrite ?check_min_level_decide, ?Hp; cbv beta iota; split_response;
    cbn [fst snd is_value_error]; rewrite drop_app_length; eauto.
Qed.

Lemma C7_witness :
  passes_validation (min_level_of (GetExecutionLogs "" (Some "INFO") None None None))
    = true ∧
  is_value_error
    (call_tool ok_client (GetExecutionLogs "" (Some "INFO") None None None) []).1
    = false ∧
  ∃ params,
    issued (call_tool ok_client (GetExecutionLogs "" (Some "INFO") None None None)) []
      = [mkRequest GET "/logs/" params].
Proof.
  assert (H : passes_validation
                (min_level_of (GetExecutionLogs "" (Some "INFO") None None None))
              = true) by (by vm_compute).
  split; [exact H|].
  exact (C7_required_parameters_unchecked ok_client
           (GetExecutionLogs "" (Some "INFO") None None None) [] H).
Defined.

(** ** The empty string as an optional parameter *)

(** C9: for every tool and each of its optional string parameters, the call
    with the empty string for that parameter is the call with [None] for
    it: same outcome (so no [ValueError] for [min_level=""]) and same
    requests (so no key for it in [params]). *)
Theorem C9_empty_string_as_absent (client : AsyncClient)
    (execution_id namespace' flow_id' : string)
    (min_level task_run_id task_id query namespace flow_id start_date
       end_date trigger_id : option string)
    (attempt : option Z) (page size : Z) :
  (get_execution_logs client execution_id (Some "") task_run_id task_id attempt
     = get_execution_logs client execution_id None task_run_id task_id attempt ∧
   get_execution_logs client execution_id min_level (Some "") task_id attempt
     = get_execution_logs client execution_id min_level None task_id attempt ∧
   get_execution_logs client execution_id min_level task_run_id (Some "") attempt
     = get_execution_logs client execution_id min_level task_run_id None attempt) ∧
  (download_execution_logs client execution_id (Some "") task_run_id task_id attempt
     = download_execution_logs client execution_id None task_run_id task_id attempt ∧
   download_execution_logs client execution_id min_level (Some "") task_id attempt
     = download_execution_logs client execution_id min_level None task_id attempt ∧
   download_execution_logs client execution_id min_level task_run_id (Some "") attempt
     = download_execution_logs client execution_id min_level task_run_id None attempt) ∧
  (search_logs client (Some "") namespace flow_id min_level start_date end_date page size
     = search_logs client None namespace flow_id min_level start_date end_date page size ∧
   search_logs client query (Some "") flow_id min_level start_date end_date page size
     = search_logs client query None flow_id min_level start_date end_date page size ∧
   search_logs client query namespace (Some "") min_level start_date end_date page size
     = search_logs client query namespace None min_level start_date end_date page size ∧
   search_logs client query namespace flow_id (Some "") start_date end_date page size
     = search_logs client query namespace flow_id None start_date end_date page size ∧
   search_logs client query namespace flow_id min_level (Some "") end_date page size
     = search_logs client query namespace flow_id min_level None end_date page size ∧
   search_logs client query namespace flow_id min_level start_date (Some "") page size
     = search_logs client query namespace flow_id min_level start_date None page size) ∧
  (delete_execution_logs client execution_id (Some "") task_run_id task_id attempt
     = delete_execution_logs client execution_id None task_run_id task_id attempt ∧
   delete_execution_logs client execution_id min_level (Some "") task_id attempt
     = delete_execution_logs client execution_id min_level None task_id attempt ∧
   delete_execution_logs client execution_id min_level task_run_id (Some "") attempt
     = delete_execution_logs client execution_id min_level task_run_id None attempt) ∧
  delete_flow_logs client namespace' flow_id' (Some "")
    = delete_flow_logs client namespace' flow_id' None ∧
  follow_execution_logs client execution_id (Some "")
    = follow_execution_logs client execution_id None.
Proof. repeat split; reflexivity. Qed.

(** The parts of C9 in the open: the check lets the empty string through,
    and the dict is left as it is. *)
Lemma check_min_level_empty : check_min_level (Some "") = check_min_level None.
Proof. reflexivity. Qed.

Lemma set_if_truthy_empty (k : string) (params : gmap string pyval) :
  set_if_truthy k (Some "") params = params.
Proof. reflexivity. Qed.

Example empty_min_level_run :
  call_tool ok_client (FollowExecutionLogs "abc123" (Some "")) [] =
    (Return (RText "[]"), [mkRequest GET "/logs/abc123/follow" ∅]).
Proof. reflexivity. Qed.

(** ** Determinism *)

(** C10: the requests of a call are a function of the tool and its
    parameter values alone: two invocations with the same parameters make
    the same requests (method, path, query mapping), whatever client they
    run against and whatever was requested before; and when the two clients
    answer alike, the two invocations end alike, in the same result or the
    same exception. *)
Theorem C10_deterministic (client1 client2 : AsyncClient) (c : tool_call)
    (tr1 tr2 : list Request) :
  issued (call_tool client1 c) tr1 = issued (call_tool client2 c) tr2 ∧
  ((∀ rq, client1 tr1 rq = client2 tr2 rq) →
   (call_tool client1 c tr1).1 = (call_tool client2 c tr2).1).
Proof.
  split.
  - run_tool c; reflexivity.
  - intros Hsame. destruct c; unfold_tool;
      try match goal with
        | |- context [check_min_level ?ml _] => split_check ml
        end;
      rewrite ?Hsame; by split_response.
Qed.

(** Two clients that differ, a history that differs: the same request. *)
Example same_request_either_client :
  issued (call_tool ok_client (FollowExecutionLogs "abc123" (Some "WARN"))) [] =
  issued (call_tool not_found_client (FollowExecutionLogs "abc123" (Some "WARN")))
    [mkRequest GET "/logs/search" ∅].
Proof. reflexivity. Qed.

Lemma C10_witness :
  (∀ rq, ok_client [] rq = ok_client [mkRequest GET "/logs/search" ∅] rq) ∧
  issued (call_tool ok_client (GetExecutionLogs "abc123" (Some "INFO") None None None)) []
    = issued (call_tool ok_client (GetExecutionLogs "abc123" (Some "INFO") None None None))
        [mkRequest GET "/logs/search" ∅] ∧
  (call_tool ok_client (GetExecutionLogs "abc123" (Some "INFO") None None None) []).1
    = (call_tool ok_client (GetExecutionLogs "abc123" (Some "INFO") None None None)
         [mkRequest GET "/logs/search" ∅]).1.
Proof.
  assert (H : ∀ rq, ok_client [] rq = ok_client [mkRequest GET "/logs/search" ∅] rq)
    by reflexivity.
  destruct (C10_deterministic ok_client ok_client
              (GetExecutionLogs "abc123" (Some "INFO") None None None)
              [] [mkRequest GET "/logs/search" ∅]) as [H1 H2].
  split; [exact H|]. split; [exact H1 | exact (H2 H)].
Defined.

(** * Further properties of the tools *)

(** ** Where the keys of [params] come from *)

Lemma truthy_Some (s : string) : truthy (Some s) = true ↔ s ≠ "".
Proof. unfold truthy. destruct (String.eqb_spec s ""); naive_solver. Qed.

Lemma lookup_set_if_truthy_Some (k k' : string) (v : option string)
    (params : gmap string pyval) (x : pyval) :
  set_if_truthy k' v params !! k = Some x →
  (k = k' ∧ ∃ s, v = Some s ∧ s ≠ "" ∧ x = PStr s) ∨ params !! k = Some x.
Proof.
  unfold set_if_truthy. destruct v as [s|]; [|by right].
  destruct (truthy (Some s)) eqn:Ht; [|by right].
  apply truthy_Some in Ht.
  intros [[<- <-] | [_ ?]]%lookup_insert_Some; [left | by right]. eauto.
Qed.

Lemma lookup_set_if_not_none_Some (k k' : string) (v : option Z)
    (params : gmap string pyval) (x : pyval) :
  set_if_not_none k' v params !! k = Some x →
  (k = k' ∧ ∃ n, v = Some n ∧ x = PInt n) ∨ params !! k = Some x.
Proof.
  unfold set_if_not_none. destruct v as [n|]; [|by right].
  intros [[<- <-] | [_ ?]]%lookup_insert_Some; [left | by right]. eauto.
Qed.

(** Walks back through the assignments that built the dict in [H]. *)
Ltac trace_key H :=
  repeat first
    [ apply lookup_set_if_truthy_Some in H as [(-> & ? & -> & ? & ->) | H]
    | apply lookup_set_if_not_none_Some in H as [(-> & ? & -> & ->) | H]
    | apply lookup_insert_Some in H as [[<- <-] | [_ H]]
    | by rewrite lookup_empty in H ].

(** The requests of a call do not depend on the client: they can be read
    off a run against the client that always fails. *)
Lemma issued_down_client (client : AsyncClient) (c : tool_call) (tr : list Request) :
  issued (call_tool client c) tr = issued (call_tool down_client c) [].
Proof. run_tool c; reflexivity. Qed.

(** Unfolds [rq ∈ issued (call_tool client c) tr] in [Hin], for a call [c]
    that is an applied constructor: either the level check passed and [rq]
    is the request of the call, or the goal is closed. *)
Ltac request_of Hin :=
  rewrite issued_down_client in Hin; revert Hin; unfold_tool;
  try match goal with
    | |- context [check_min_level ?ml _] => split_check ml
    end;
  unfold down_client; cbv beta iota; cbn [fst snd];
  rewrite ?drop_app_length, ?drop_all; intros Hin;
  [ apply list_elem_of_singleton in Hin
  | by apply elem_of_nil in Hin .. ].

(** Every entry of the [params] of a request is a non-empty string the
    caller gave for an optional parameter, an integer the caller gave for
    one, or [page] or [size] of [search_logs]. *)
Lemma params_origin (client : AsyncClient) (c : tool_call) (tr : list Request)
    (rq : Request) (k : string) (x : pyval) :
  rq ∈ issued (call_tool client c) tr →
  req_params rq !! k = Some x →
  (∃ s, x = PStr s ∧ s ≠ "" ∧ (k, Some (PStr s)) ∈ optional_args c) ∨
  (∃ n, x = PInt n ∧ (k, Some (PInt n)) ∈ optional_args c) ∨
  (k, x) ∈ fixed_args c.
Proof.
  intros Hin Hk. destruct c; request_of Hin; subst rq; cbn [req_params] in Hk.
  all: trace_key Hk; cbn [optional_args fixed_args fmap option_fmap option_map];
    set_unfold; naive_solver.
Qed.

Lemma string_params (client : AsyncClient) (c : tool_call)
    (tr : list Request) (k s : string) :
  (k, Some (PStr s)) ∈ optional_args c →
  s ≠ "" →
  Forall (λ rq, req_params rq !! k = Some (PStr s))
    (issued (call_tool client c) tr).
Proof.
  intros Hin Hs. apply truthy_Some in Hs.
  destruct c; cbn [optional_args] in Hin; set_unfold in Hin.
  all: destruct_or!; simplify_eq.
  all: repeat match goal with
         | H : Some _ = _ <$> ?o |- _ => destruct o; simpl in H; simplify_eq
         end.
  all: apply Forall_forall; intros rq Hrq; request_of Hrq; subst rq;
    cbn [req_params]; lookup_params; by rewrite ?Hs.
Qed.

(** X1: a non-empty string given for an optional parameter is sent as it
    is, under the backend name of the parameter ([min_level] as [minLevel],
    [query] as [q], [start_date] as [startDate], ...): a call whose
    [min_level] passes validation makes one request, and that request
    holds the string under that name, with no trimming, no change of case
    and no parsing of dates. *)
Theorem X1_string_parameter_sent_verbatim (client : AsyncClient) (c : tool_call)
    (tr : list Request) (k s : string) :
  (k, Some (PStr s)) ∈ optional_args c →
  s ≠ "" →
  passes_validation (min_level_of c) = true →
  ∃ rq, issued (call_tool client c) tr = [rq] ∧
        req_params rq !! k = Some (PStr s).
Proof.
  intros Hin Hs Hp.
  destruct (issued_singleton client c tr Hp) as [rq Hrq].
  exists rq. split; [done|].
  apply (Forall_singleton (λ rq, req_params rq !! k = Some (PStr s))).
  rewrite <- Hrq. by apply string_params.
Qed.

Lemma X1_witness :
  ("startDate", Some (PStr "yesterday"))
    ∈ optional_args (SearchLogs None None None None (Some "yesterday") None None None) ∧
  "yesterday" ≠ "" ∧
  passes_validation
    (min_level_of (SearchLogs None None None None (Some "yesterday") None None None))
    = true ∧
  ∃ rq,
    issued (call_tool routing_client
              (SearchLogs None None None None (Some "yesterday") None None None)) []
      = [rq] ∧
    req_params rq !! "startDate" = Some (PStr "yesterday").
Proof.
  assert (H1 : ("startDate", Some (PStr "yesterday"))
                 ∈ optional_args
                     (SearchLogs None None None None (Some "yesterday") None None None)).
  { simpl. do 4 apply list_elem_of_further. apply list_elem_of_here. }
  assert (H2 : "yesterday" ≠ "") by done.
  split; [exact H1|]. split; [exact H2|]. split; [reflexivity|].
  exact (X1_string_parameter_sent_verbatim routing_client
           (SearchLogs None None None None (Some "yesterday") None None None) []
           "startDate" "yesterday" H1 H2 eq_refl).
Defined.

(** X2: the [params] of a request hold nothing the caller did not give:
    every key is the backend name of an optional parameter of that tool,
    with the value given for it, or is [page] or [size] of [search_logs].
    In particular [execution_id], [namespace] and [flow_id] of
    [delete_flow_logs] travel in the path only. *)
Theorem X2_params_only_from_arguments (client : AsyncClient) (c : tool_call)
    (tr : list Request) (rq : Request) (k : string) (x : pyval) :
  rq ∈ issued (call_tool client c) tr →
  req_params rq !! k = Some x →
  (k, Some x) ∈ optional_args c ∨ (k, x) ∈ fixed_args c.
Proof.
  intros Hin Hk.
  destruct (params_origin client c tr rq k x Hin Hk)
    as [(s & -> & _ & ?) | [(n & -> & ?) | ?]]; auto.
Qed.

Lemma X2_witness :
  mkRequest DELETE "/logs/company.team/hello_mcp" {["triggerId" := PStr "t1"]}
    ∈ issued (call_tool ok_client
                (DeleteFlowLogs "company.team" "hello_mcp" (Some "t1"))) [] ∧
  ({["triggerId" := PStr "t1"]} : gmap string pyval) !! "triggerId"
    = Some (PStr "t1") ∧
  (("triggerId", Some (PStr "t1"))
     ∈ optional_args (DeleteFlowLogs "company.team" "hello_mcp" (Some "t1")) ∨
   ("triggerId", PStr "t1")
     ∈ fixed_args (DeleteFlowLogs "company.team" "hello_mcp" (Some "t1"))).
Proof.
  assert (H1 : mkRequest DELETE "/logs/company.team/hello_mcp"
                 {["triggerId" := PStr "t1"]}
                 ∈ issued (call_tool ok_client
                             (DeleteFlowLogs "company.team" "hello_mcp" (Some "t1"))) []).
  { apply list_elem_of_here. }
  assert (H2 : ({["triggerId" := PStr "t1"]} : gmap string pyval) !! "triggerId"
               = Some (PStr "t1")) by (by vm_compute).
  split; [exact H1|]. split; [exact H2|].
  exact (X2_params_only_from_arguments ok_client
           (DeleteFlowLogs "company.team" "hello_mcp" (Some "t1")) []
           _ "triggerId" (PStr "t1") H1 H2).
Defined.

Lemma fixed_args_int (c : tool_call) (k : string) (x : pyval) :
  (k, x) ∈ fixed_args c → ∃ n, x = PInt n.
Proof.
  destruct c; cbn [fixed_args]; intros H; try by apply elem_of_nil in H.
  apply elem_of_cons in H as [[= _ ->] | H]; [eauto|].
  apply list_elem_of_singleton in H as [= _ ->]. eauto.
Qed.

(** X3: no request carries an empty string as the value of a query
    parameter: an empty string is dropped, never sent as an empty
    parameter. *)
Theorem X3_no_empty_value_sent (client : AsyncClient) (c : tool_call)
    (tr : list Request) (k : string) :
  Forall (λ rq, req_params rq !! k ≠ Some (PStr ""))
    (issued (call_tool client c) tr).
Proof.
  apply Forall_forall. intros rq Hin Hk.
  destruct (params_origin client c tr rq k _ Hin Hk)
    as [(s & [= <-] & Hne & _) | [(n & [=] & _) | Hfix]]; [done|].
  by apply fixed_args_int in Hfix as [n [=]].
Qed.

Lemma issued_level_check_passes (client : AsyncClient) (c : tool_call)
    (tr : list Request) (rq : Request) :
  rq ∈ issued (call_tool client c) tr → level_check_passes (min_level_of c).
Proof.
  intros Hin. destruct c; cbn [min_level_of]; try (request_of Hin; assumption).
  intros tr'. reflexivity.
Qed.

Lemma min_level_arg (c : tool_call) (v : pyval) :
  ("minLevel", Some v) ∈ optional_args c →
  ∃ s, v = PStr s ∧ min_level_of c = Some s.
Proof.
  intros Hin. destruct c; cbn [optional_args min_level_of] in *.
  all: repeat (apply elem_of_cons in Hin as [Hin | Hin]; [try discriminate Hin|]).
  all: try by apply elem_of_nil in Hin.
  all: injection Hin as Hin; destruct min_level; simpl in Hin; simplify_eq; eauto.
Qed.

(** X4: whatever reaches the backend as [minLevel] is one of the five
    levels: a request with that key has passed the check, so its value is
    ERROR, WARN, INFO, DEBUG or TRACE, in exactly that spelling. *)
Theorem X4_min_level_sent_is_valid (client : AsyncClient) (c : tool_call)
    (tr : list Request) (rq : Request) (x : pyval) :
  rq ∈ issued (call_tool client c) tr →
  req_params rq !! "minLevel" = Some x →
  ∃ v, x = PStr v ∧ v ∈ valid_levels ∧ min_level_of c = Some v.
Proof.
  intros Hin Hk.
  pose proof (issued_level_check_passes client c tr rq Hin) as Hpass.
  destruct (params_origin client c tr rq _ x Hin Hk)
    as [(s & -> & Hne & Harg) | [(n & -> & Harg) | Hfix]].
  - apply min_level_arg in Harg as (v & [= <-] & Hml).
    exists s. split; [done|]. split; [|done].
    rewrite Hml in Hpass.
    apply level_check_passes_iff in Hpass as [[=] | [[= ->] | (? & [= <-] & ?)]];
      done.
  - by apply min_level_arg in Harg as (v & [=] & _).
  - destruct c; cbn [fixed_args] in Hfix; try by apply elem_of_nil in Hfix.
    apply elem_of_cons in Hfix as [[=] | Hfix].
    by apply list_elem_of_singleton in Hfix as [=].
Qed.

Lemma X4_witness :
  mkRequest GET "/logs/abc123/follow" {["minLevel" := PStr "WARN"]}
    ∈ issued (call_tool ok_client (FollowExecutionLogs "abc123" (Some "WARN"))) [] ∧
  ({["minLevel" := PStr "WARN"]} : gmap string pyval) !! "minLevel"
    = Some (PStr "WARN") ∧
  ∃ v, PStr "WARN" = PStr v ∧ v ∈ valid_levels ∧
       min_level_of (FollowExecutionLogs "abc123" (Some "WARN")) = Some v.
Proof.
  assert (H1 : mkRequest GET "/logs/abc123/follow" {["minLevel" := PStr "WARN"]}
                 ∈ issued (call_tool ok_client
                             (FollowExecutionLogs "abc123" (Some "WARN"))) []).
  { apply list_elem_of_here. }
  assert (H2 : ({["minLevel" := PStr "WARN"]} : gmap string pyval) !! "minLevel"
               = Some (PStr "WARN")) by (by vm_compute).
  split; [exact H1|]. split; [exact H2|].
  exact (X4_min_level_sent_is_valid ok_client
           (FollowExecutionLogs "abc123" (Some "WARN")) [] _ (PStr "WARN") H1 H2).
Defined.

(** ** Outcomes *)

(** X5: a call ends in the [ValueError] of the level check exactly when its
    [min_level] is a non-empty string outside the five levels; nothing else
    about the call (the other parameters, the client, the history) matters,
    and [delete_flow_logs], which has no [min_level], never ends so. The
    comparison is exact: a level in another case, such as [info], is
    rejected. *)
Theorem X5_value_error_iff (client : AsyncClient) (c : tool_call)
    (tr : list Request) :
  is_value_error (call_tool client c tr).1 = true ↔
  ∃ v, min_level_of c = Some v ∧ v ≠ "" ∧ (v ∉ valid_levels).
Proof.
  split.
  - destruct c; cbn [min_level_of]; run_call; intros Herr;
      try discriminate Herr; eauto 10.
  - intros (v & Hml & Hne & Hnot).
    destruct c; cbn [min_level_of] in Hml; try discriminate Hml; subst;
      unfold_tool; by rewrite check_min_level_rejects.
Qed.

Lemma X5_witness :
  is_value_error
    (call_tool ok_client (GetExecutionLogs "abc123" (Some "info") None None None) []).1
    = true.
Proof.
  apply (X5_value_error_iff ok_client
           (GetExecutionLogs "abc123" (Some "info") None None None) []).
  exists "info". split; [reflexivity|]. split; [done | by vm_compute].
Defined.

(** X6: [download_execution_logs] and [follow_execution_logs] never decode
    the body: each makes one request when its [min_level] passes
    validation, and whenever the backend answers that request with a 2xx
    status, the call returns the text of the response as it is, whether
    the body is empty, JSON or anything else. *)
Theorem X6_text_tools_return_text (client : AsyncClient) (tr : list Request)
    (execution_id : string)
    (min_level task_run_id task_id : option string) (attempt : option Z) :
  let download :=
    download_execution_logs client execution_id min_level task_run_id task_id
      attempt in
  let follow := follow_execution_logs client execution_id min_level in
  passes_validation min_level = true →
  (∃ rq, issued download tr = [rq] ∧
     ∀ r, client tr rq = inl r → (200 ≤ status_code r ≤ 299)%Z →
          (download tr).1 = Return (text r)) ∧
  (∃ rq, issued follow tr = [rq] ∧
     ∀ r, client tr rq = inl r → (200 ≤ status_code r ≤ 299)%Z →
          (follow tr).1 = Return (text r)).
Proof.
  intros download follow Hp. subst download follow.
  split; own_request Hp; intros r Hr Hok; apply is_success_true in Hok;
    run_valid Hp; by rewrite Hr, Hok.
Qed.

Lemma X6_witness :
  passes_validation None = true ∧
  (download_execution_logs routing_client "abc123" None None None None []).1
    = Return "line 1".
Proof.
  split; [reflexivity|].
  destruct (X6_text_tools_return_text routing_client [] "abc123" None None None
              None eq_refl) as [(rq & Hrq & Hanswer) _].
  injection Hrq as <-.
  refine (Hanswer (mkResponse 200 "line 1" "line 1" None) eq_refl _).
  simpl. lia.
Defined.

(** X7: [get_execution_logs] and [search_logs] have no fallback for a body
    that does not decode: each makes one request when its [min_level]
    passes validation, and whenever the backend answers that request with
    a 2xx status, the call returns the decoded body when there is one and
    otherwise raises the decoding error, also when the body is empty (the
    two delete tools return [{"status": "deleted"}] there). *)
Theorem X7_json_tools_on_success (client : AsyncClient) (tr : list Request)
    (execution_id : string)
    (min_level task_run_id task_id query namespace flow_id start_date
       end_date : option string)
    (attempt : option Z) (page size : Z) :
  let get :=
    get_execution_logs client execution_id min_level task_run_id task_id attempt in
  let search :=
    search_logs client query namespace flow_id min_level start_date end_date
      page size in
  let result (r : Response) : outcome json :=
    match json_body r with
    | Some j => Return j
    | None => Raise (JSONDecodeError (content r))
    end in
  passes_validation min_level = true →
  (∃ rq, issued get tr = [rq] ∧
     ∀ r, client tr rq = inl r → (200 ≤ status_code r ≤ 299)%Z →
          (get tr).1 = result r) ∧
  (∃ rq, issued search tr = [rq] ∧
     ∀ r, client tr rq = inl r → (200 ≤ status_code r ≤ 299)%Z →
          (search tr).1 = result r).
Proof.
  intros get search result Hp. subst get search result.
  split; own_request Hp; intros r Hr Hok; apply is_success_true in Hok;
    run_valid Hp; rewrite Hr, Hok; by destruct (json_body r).
Qed.

Lemma X7_witness :
  passes_validation None = true ∧
  (get_execution_logs no_content_client "abc123" None None None None []).1
    = Raise (JSONDecodeError "").
Proof.
  split; [reflexivity|].
  destruct (X7_json_tools_on_success no_content_client [] "abc123" None None
              None None None None None None None 1 25 eq_refl)
    as [(rq & Hrq & Hanswer) _].
  injection Hrq as <-.
  refine (Hanswer (mkResponse 204 "" "" None) eq_refl _).
  simpl. lia.
Defined.

(** X8: the confirmation [{"status": "deleted"}] stands in for an empty
    body only: [delete_execution_logs] (its [min_level] passing
    validation) and [delete_flow_logs] each make one request, and whenever
    the backend answers that request with a 2xx status and a body that is
    not empty and does not decode, the call raises the decoding error,
    although the backend has accepted the deletion. *)
Theorem X8_delete_undecodable_body (client : AsyncClient) (tr : list Request)
    (execution_id : string)
    (min_level task_run_id task_id : option string) (attempt : option Z)
    (namespace flow_id : string) (trigger_id : option string) :
  let by_execution :=
    delete_execution_logs client execution_id min_level task_run_id task_id attempt in
  let by_flow := delete_flow_logs client namespace flow_id trigger_id in
  (passes_validation min_level = true →
   ∃ rq, issued by_execution tr = [rq] ∧
     ∀ r, client tr rq = inl r → (200 ≤ status_code r ≤ 299)%Z →
          content r ≠ "" → json_body r = None →
          (by_execution tr).1 = Raise (JSONDecodeError (content r))) ∧
  (∃ rq, issued by_flow tr = [rq] ∧
     ∀ r, client tr rq = inl r → (200 ≤ status_code r ≤ 299)%Z →
          content r ≠ "" → json_body r = None →
          (by_flow tr).1 = Raise (JSONDecodeError (content r))).
Proof.
  intros by_execution by_flow. subst by_execution by_flow. split.
  - intros Hp. own_request Hp.
    intros r Hr Hok Hc Hj. apply is_success_true in Hok.
    apply nonempty_true in Hc. run_valid Hp. by rewrite Hr, Hok, Hc, Hj.
  - own_request I.
    intros r Hr Hok Hc Hj. apply is_success_true in Hok.
    apply nonempty_true in Hc. unfold_tool. by rewrite Hr, Hok, Hc, Hj.
Qed.

Lemma X8_witness :
  passes_validation None = true ∧
  (delete_execution_logs garbled_client "abc123" None None None None []).1
    = Raise (JSONDecodeError "<html>").
Proof.
  split; [reflexivity|].
  destruct (X8_delete_undecodable_body garbled_client [] "abc123" None None None
              None "company.team" "hello_mcp" None) as [He _].
  destruct (He eq_refl) as (rq & Hrq & Hanswer).
  injection Hrq as <-.
  refine (Hanswer (mkResponse 200 "<html>" "<html>" None) eq_refl _ _ eq_refl);
    [simpl; lia | done].
Defined.

(** X9: a failure of the transport is not caught: when the client fails on
    the request of a call, the call raises that failure, returns nothing,
    and has made that one request only; no tool retries or substitutes a
    result. *)
Theorem X9_transport_failure_propagates (client : AsyncClient) (c : tool_call)
    (tr : list Request) (rq : Request) (info : string) :
  rq ∈ issued (call_tool client c) tr →
  client tr rq = inr info →
  call_tool client c tr = (Raise (TransportError info), (tr ++ [rq])%list).
Proof.
  intros Hin Hr. revert Hin.
  run_tool c; intros Hin; try by apply elem_of_nil in Hin.
  all: apply list_elem_of_singleton in Hin; subst rq; congruence.
Qed.

Lemma X9_witness :
  mkRequest DELETE "/logs/abc123" ∅
    ∈ issued (call_tool down_client
                (DeleteExecutionLogs "abc123" None None None None)) [] ∧
  down_client [] (mkRequest DELETE "/logs/abc123" ∅) = inr "connection refused" ∧
  call_tool down_client (DeleteExecutionLogs "abc123" None None None None) [] =
    (Raise (TransportError "connection refused"),
     [mkRequest DELETE "/logs/abc123" ∅]).
Proof.
  assert (H1 : mkRequest DELETE "/logs/abc123" ∅
                 ∈ issued (call_tool down_client
                             (DeleteExecutionLogs "abc123" None None None None)) []).
  { apply list_elem_of_here. }
  split; [exact H1|]. split; [reflexivity|].
  exact (X9_transport_failure_propagates down_client
           (DeleteExecutionLogs "abc123" None None None None) []
           (mkRequest DELETE "/logs/abc123" ∅) "connection refused" H1 eq_refl).
Defined.

(** ** Paths *)

(** X10: identifiers are put into the path without escaping, so a slash in
    one moves the call to another endpoint: [delete_execution_logs] with
    the id [ns/flow] and no filter is [delete_flow_logs(ns, flow)], the
    same request and the same outcome; and [get_execution_logs] with an id
    ending in [/download] or [/follow] makes the request of
    [download_execution_logs] or [follow_execution_logs] for the id before
    it. *)
Theorem X10_path_not_escaped (client : AsyncClient) (tr : list Request)
    (namespace flow_id execution_id : string)
    (min_level task_run_id task_id : option string) (attempt : option Z) :
  delete_execution_logs client (namespace +:+ "/" +:+ flow_id) None None None None tr
    = delete_flow_logs client namespace flow_id None tr ∧
  issued (get_execution_logs client (execution_id +:+ "/download") min_level
            task_run_id task_id attempt) tr
    = issued (download_execution_logs client execution_id min_level task_run_id
                task_id attempt) tr ∧
  issued (get_execution_logs client (execution_id +:+ "/follow") min_level
            None None None) tr
    = issued (follow_execution_logs client execution_id min_level) tr.
Proof.
  split; [reflexivity|].
  split; unfold_tool; split_check min_level; split_response; reflexivity.
Qed.

Example slash_in_execution_id :
  call_tool ok_client (DeleteExecutionLogs "company.team/hello_mcp" None None None None) []
  = call_tool ok_client (DeleteFlowLogs "company.team" "hello_mcp" None) [].
Proof. reflexivity. Qed.

(** ** The validation predicate, spelled out *)

Lemma passes_validation_iff (ml : option string) :
  passes_validation ml = true ↔
  ml = None ∨ ml = Some "" ∨ ∃ v, ml = Some v ∧ v ∈ valid_levels.
Proof.
  rewrite <- level_check_passes_iff. split.
  - intros Hp tr. by apply check_min_level_passes.
  - intros Hpass. specialize (Hpass []).
    rewrite check_min_level_decide in Hpass.
    by destruct (passes_validation ml).
Qed.
